(** * Shallow embedding of the Flask blog application (main.py)

    The three SQLAlchemy tables ([users], [blog_posts], [comments]) are lists
    of rows in rowid order, which is the order [query.all()] returns them in
    on SQLite.  The process-wide [users] dict built once at start-up is a
    [gmap] from e-mail to its placeholder value.  One client's Flask-Login
    session is the stored user id.  Every request handler is a function
    [State -> Response * State]; an exception that escapes a handler is the
    [Crash] response (HTTP 500) and leaves the committed state untouched. *)

From stdpp Require Import base gmap strings list.
From Stdlib Require Import ZArith.
Open Scope Z_scope.

(** ** Tables (class [User], [BlogPost], [Comment]) *)

Record User := mkUser {
  user_id : Z;
  email : string;
  password : string;  (* the stored salted hash, never the plaintext *)
  name : string
}.

Record BlogPost := mkBlogPost {
  post_id : Z;
  author_id : option Z;
  title : string;
  subtitle : string;
  date : string;
  body : string;
  img_url : string
}.

Record Comment := mkComment {
  comment_id : Z;
  text : string;
  commenter_id : option Z;
  blog_post_id : option Z
}.

Record State := mkState {
  users_tbl : list User;
  posts_tbl : list BlogPost;
  comments_tbl : list Comment;
  (* the module-level dict [users = {}], keyed by e-mail *)
  users : gmap string string;
  (* Flask-Login session: the id stored by [login_user], if any *)
  session : option Z
}.

(** ** Responses of a request handler *)

Inductive Response :=
  | RenderIndex (all_posts : list BlogPost)                      (* index.html *)
  | RenderPost (post : option BlogPost) (comments : list Comment)  (* post.html *)
  | RenderForm (template : string)
  | Redirect (endpoint : string) (flashed : option string)
  | Abort (code : Z)
  | Crash (exn : string).

Inductive Method := GET | POST.

Definition Handler := State -> Response * State.

(** ** The password-hash primitive of werkzeug.security, kept opaque:
    [generate_password_hash salt password] and [check_password_hash pwhash
    password].  The salt is the random one drawn by the call. *)

Class Hasher := {
  generate_password_hash : string -> string -> string;
  check_password_hash : string -> string -> bool
}.

(** ** Store primitives *)

(** Next primary key of an integer primary key column on SQLite: one more
    than the largest id in the table, 1 for an empty table. *)
Definition next_id (ids : list Z) : Z := fold_right Z.max 0 ids + 1.

(** [User.query.get(uid)] *)
Definition get_user (st : State) (uid : Z) : option User :=
  find (fun u => user_id u =? uid) (users_tbl st).

(** [User.query.filter_by(email=email).first()] *)
Definition first_user_by_email (st : State) (e : string) : option User :=
  find (fun u => bool_decide (email u = e)) (users_tbl st).

(** [BlogPost.query.get(post_id)] *)
Definition get_post (st : State) (pid : Z) : option BlogPost :=
  find (fun p => post_id p =? pid) (posts_tbl st).

Definition opt_eqb (o : option Z) (z : Z) : bool :=
  match o with Some z' => z' =? z | None => false end.

(** [db.session.query(Comment).filter_by(blog_post_id=post_id).all()] *)
Definition comments_for (st : State) (pid : Z) : list Comment :=
  List.filter (fun c => opt_eqb (blog_post_id c) pid) (comments_tbl st).

(** [load_user] through the session: [current_user] is the loaded user or
    the anonymous user ([None]). *)
Definition current_user (st : State) : option User :=
  match session st with
  | Some uid => get_user st uid
  | None => None
  end.

Definition set_session (st : State) (s : option Z) : State :=
  mkState (users_tbl st) (posts_tbl st) (comments_tbl st) (users st) s.

Definition set_users_tbl (st : State) (l : list User) : State :=
  mkState l (posts_tbl st) (comments_tbl st) (users st) (session st).

Definition set_posts_tbl (st : State) (l : list BlogPost) : State :=
  mkState (users_tbl st) l (comments_tbl st) (users st) (session st).

Definition set_comments_tbl (st : State) (l : list Comment) : State :=
  mkState (users_tbl st) (posts_tbl st) l (users st) (session st).

(** The UNIQUE constraint on [users.email], checked by SQLite at commit. *)
Definition email_taken (st : State) (e : string) : bool :=
  existsb (fun u => bool_decide (email u = e)) (users_tbl st).

(** The UNIQUE constraint on [blog_posts.title] when the row [pid] is
    updated: another row already carries the new title. *)
Definition title_taken_by_other (st : State) (pid : Z) (t : string) : bool :=
  existsb (fun q => negb (post_id q =? pid) && bool_decide (title q = t)) (posts_tbl st).

(** ** Start-up (lines 109-112): the dict is filled once from the e-mails
    already in the [users] table, each with the placeholder ['Secret']. *)
Definition build_users_cache (l : list User) : gmap string string :=
  fold_right (fun u m => <[email u := "Secret"]> m) ∅ l.

Definition startup (us : list User) (ps : list BlogPost) (cs : list Comment) : State :=
  mkState us ps cs (build_users_cache us) None.

(** ** Forms.  A form argument is [Some data] exactly when the request is a
    POST whose form passes [validate_on_submit()]; [None] covers a GET and a
    submission that fails validation (the validators live in forms.py, an
    external collaborator). *)

Record RegisterData := mkRegisterData {
  reg_email : string; reg_password : string; reg_name : string }.

Record LoginData := mkLoginData { login_email : string; login_password : string }.

Record PostData := mkPostData {
  form_title : string; form_subtitle : string; form_body : string; form_img_url : string }.

(** ** Decorators *)

(** [admin_only] (lines 30-39): reads [current_user.id]; the anonymous user
    of Flask-Login has no [id] attribute, so the read raises. *)
Definition admin_only (function : Handler) : Handler := fun st =>
  match current_user st with
  | None => (Crash "AttributeError", st)
  | Some u => if negb (user_id u =? 1) then (Abort 403, st) else function st
  end.

(** Flask-Login's [login_required] with no [login_view] configured. *)
Definition login_required (function : Handler) : Handler := fun st =>
  match current_user st with
  | None => (Abort 401, st)
  | Some _ => function st
  end.

(** ** Routes *)

(** [get_all_posts] ([GET /]) *)
Definition get_all_posts : Handler := fun st => (RenderIndex (posts_tbl st), st).

(** [register] ([/register]); [salt] is the random salt drawn by
    [generate_password_hash] for this call. *)
Definition register `{Hasher} (salt : string) (form : option RegisterData) : Handler := fun st =>
  match form with
  | None => (RenderForm "register.html", st)
  | Some f =>
      match users st !! reg_email f with
      | Some _ =>
          (Redirect "login" (Some "You've already signed up with that email, log in instead!"), st)
      | None =>
          let hash_and_salted_password := generate_password_hash salt (reg_password f) in
          let new_user := mkUser (next_id (map user_id (users_tbl st))) (reg_email f)
                                 hash_and_salted_password (reg_name f) in
          (* db.session.commit(): the UNIQUE constraint on users.email *)
          if email_taken st (reg_email f)
          then (Crash "IntegrityError", st)
          else
            let st1 := set_users_tbl st (users_tbl st ++ [new_user]) in
            (* login_user(new_user) *)
            (Redirect "get_all_posts" None, set_session st1 (Some (user_id new_user)))
      end
  end.

(** [login] ([/login]) *)
Definition login `{Hasher} (form : option LoginData) : Handler := fun st =>
  match form with
  | None => (RenderForm "login.html", st)
  | Some f =>
      match users st !! login_email f with
      | None => (Redirect "login" (Some "The username/email does not exist!"), st)
      | Some _ =>
          match first_user_by_email st (login_email f) with
          | Some new_user =>
              if check_password_hash (password new_user) (login_password f)
              then (Redirect "get_all_posts" None, set_session st (Some (user_id new_user)))
              else (Redirect "login" (Some "The password is incorrect, Please try again"), st)
          | None => (Redirect "login" (Some "The password is incorrect, Please try again"), st)
          end
      end
  end.

(** [logout] ([/logout]) *)
Definition logout : Handler := fun st =>
  (Redirect "get_all_posts" None, set_session st None).

(** [show_post] ([/post/<post_id>]).  The comment list is read before the
    new comment is inserted.  SQLite does not enforce foreign keys unless
    asked to, so the insert does not check that the post exists. *)
Definition show_post (post_id_arg : Z) (method : Method) (form : option string) : Handler :=
  fun st =>
  let requested_post := get_post st post_id_arg in
  let all_comments := comments_for st post_id_arg in
  match method with
  | GET => (RenderPost requested_post all_comments, st)
  | POST =>
      match form, current_user st with
      | Some comment_text, Some cu =>
          let new_comment := mkComment (next_id (map comment_id (comments_tbl st)))
                                       comment_text (Some (user_id cu)) (Some post_id_arg) in
          (RenderPost requested_post all_comments,
           set_comments_tbl st (comments_tbl st ++ [new_comment]))
      | _, _ =>
          (Redirect "login" (Some "You need to login or register to comment"), st)
      end
  end.

(** [add_new_post] ([/new-post]); [today] is [date.today().strftime(...)]. *)
Definition add_new_post_body (today : string) (form : option PostData) : Handler := fun st =>
  match form with
  | None => (RenderForm "make-post.html", st)
  | Some f =>
      let new_post := mkBlogPost (next_id (map post_id (posts_tbl st)))
                        (option_map user_id (current_user st))
                        (form_title f) (form_subtitle f) today (form_body f) (form_img_url f) in
      (* db.session.commit(): the UNIQUE constraint on blog_posts.title *)
      if existsb (fun q => bool_decide (title q = form_title f)) (posts_tbl st)
      then (Crash "IntegrityError", st)
      else (Redirect "get_all_posts" None, set_posts_tbl st (posts_tbl st ++ [new_post]))
  end.

Definition add_new_post (today : string) (form : option PostData) : Handler :=
  admin_only (add_new_post_body today form).

(** The assignments of lines 263-267: four fields, author and date kept. *)
Definition apply_edit (f : PostData) (p : BlogPost) : BlogPost :=
  mkBlogPost (post_id p) (author_id p) (form_title f) (form_subtitle f)
             (date p) (form_body f) (form_img_url f).

(** [edit_post] ([/edit-post/<post_id>]): building the pre-filled form reads
    [post.title], which raises when [BlogPost.query.get] returned [None]. *)
Definition edit_post_body (pid : Z) (form : option PostData) : Handler := fun st =>
  match get_post st pid with
  | None => (Crash "AttributeError", st)
  | Some post =>
      match form with
      | None => (RenderForm "make-post.html", st)
      | Some f =>
          if title_taken_by_other st pid (form_title f)
          then (Crash "IntegrityError", st)
          else (Redirect "show_post" None,
                set_posts_tbl st (map (fun q => if post_id q =? pid then apply_edit f q else q)
                                      (posts_tbl st)))
      end
  end.

Definition edit_post (pid : Z) (form : option PostData) : Handler :=
  admin_only (login_required (edit_post_body pid form)).

(** Deleting a parent whose one-to-many [comments] relationship has no
    delete cascade: SQLAlchemy loads the children and sets their foreign key
    to NULL. *)
Definition nullify_parent (pid : Z) (c : Comment) : Comment :=
  if opt_eqb (blog_post_id c) pid
  then mkComment (comment_id c) (text c) (commenter_id c) None
  else c.

(** [delete_post] ([/delete/<post_id>]): [db.session.delete(None)] raises. *)
Definition delete_post_body (pid : Z) : Handler := fun st =>
  match get_post st pid with
  | None => (Crash "UnmappedInstanceError", st)
  | Some _ =>
      let st1 := set_posts_tbl st (List.filter (fun q => negb (post_id q =? pid)) (posts_tbl st)) in
      (Redirect "get_all_posts" None,
       set_comments_tbl st1 (map (nullify_parent pid) (comments_tbl st)))
  end.

Definition delete_post (pid : Z) : Handler := admin_only (delete_post_body pid).

(** Running requests one after another, threading the state. *)
Fixpoint run (hs : list Handler) (st : State) : list Response * State :=
  match hs with
  | [] => ([], st)
  | h :: rest => let (r, st1) := h st in
                 let (rs, st2) := run rest st1 in (r :: rs, st2)
  end.

(** ** A concrete stand-in for the hash primitive, used to run the handlers
    on concrete inputs: the stored string is [password ++ "$" ++ salt] and
    checking tests that prefix. *)
Definition toy_hasher : Hasher := {|
  generate_password_hash salt pw := (pw ++ "$" ++ salt)%string;
  check_password_hash pwhash pw := String.prefix (pw ++ "$")%string pwhash
|}.

(** A fresh deployment: empty database at start-up. *)
Definition st_empty : State := startup [] [] [].

(** A running blog: the administrator (id 1) is logged in, Bob (id 2) has
    commented on the first post. *)
Definition st_blog : State :=
  set_session
    (startup [mkUser 1 "admin@x.com" "pw0$s0" "Admin"; mkUser 2 "bob@x.com" "pw2$s2" "Bob"]
             [mkBlogPost 1 (Some 1) "T" "S" "June 01, 2026" "B" "I";
              mkBlogPost 2 (Some 1) "U" "S2" "June 02, 2026" "B2" "I2"]
             [mkComment 1 "first" (Some 2) (Some 1)])
    (Some 1).

(** The same blog with no one logged in. *)
Definition st_anon : State := set_session st_blog None.

(** The same blog with Bob logged in. *)
Definition st_bob : State := set_session st_blog (Some 2).

(** ** Lemmas about the store primitives *)

Lemma next_id_gt (l : list Z) : Forall (fun z => z < next_id l) l.
Proof.
  unfold next_id. induction l as [|a l IH]; cbn; constructor.
  - lia.
  - eapply Forall_impl; [exact IH|]. cbn. intros z Hz. lia.
Qed.

Lemma find_user_fresh_id (us : list User) (u : User) :
  user_id u = next_id (map user_id us) ->
  find (fun v => user_id v =? user_id u) (us ++ [u]) = Some u.
Proof.
  intros Hid. pose proof (next_id_gt (map user_id us)) as Hgt.
  rewrite <- Hid in Hgt. clear Hid.
  induction us as [|v us IH]; cbn in *.
  - rewrite Z.eqb_refl. reflexivity.
  - inversion Hgt as [|? ? Hv Hrest]; subst.
    destruct (Z.eqb_spec (user_id v) (user_id u)); [lia|].
    apply IH. exact Hrest.
Qed.

Lemma find_app_None {A} (f : A -> bool) (l1 l2 : list A) :
  find f l1 = None -> find f (l1 ++ l2) = find f l2.
Proof.
  induction l1 as [|a l1 IH]; cbn; [reflexivity|].
  destruct (f a); [discriminate|exact IH].
Qed.

Lemma register_fresh `{Hasher} (salt e p n : string) (st : State) :
  users st !! e = None -> email_taken st e = false ->
  register salt (Some (mkRegisterData e p n)) st =
  (Redirect "get_all_posts" None,
   set_session
     (set_users_tbl st (users_tbl st ++
        [mkUser (next_id (map user_id (users_tbl st))) e (generate_password_hash salt p) n]))
     (Some (next_id (map user_id (users_tbl st))))).
Proof. intros Hc Ht. unfold register. cbn. rewrite Hc, Ht. reflexivity. Qed.

(** Registering an e-mail present in the [users] dict redirects to the
    login page with "You've already signed up with that email, log in
    instead!" and changes nothing. *)
Lemma register_cached_email `{Hasher} (salt : string) (f : RegisterData) (st : State) :
  is_Some (users st !! reg_email f) ->
  register salt (Some f) st =
  (Redirect "login" (Some "You've already signed up with that email, log in instead!"), st).
Proof. intros [v Hv]. unfold register. rewrite Hv. reflexivity. Qed.

Lemma login_not_cached `{Hasher} (e p : string) (st : State) :
  users st !! e = None ->
  login (Some (mkLoginData e p)) st =
  (Redirect "login" (Some "The username/email does not exist!"), st).
Proof. intros Hc. unfold login. cbn. rewrite Hc. reflexivity. Qed.

(** ** Registration and login *)

Section Accounts.
Context {HS : Hasher}.

(** The user record [register] creates for a fresh e-mail. *)
Definition registered_user (st : State) (e p n salt : string) : User :=
  mkUser (next_id (map user_id (users_tbl st))) e (generate_password_hash salt p) n.

(** C1 (code_bug).  For a fresh e-mail (neither in the start-up dict nor in
    the table), [register] creates the user and logs them in, but after
    [logout] a [login] with the same password is refused with "The
    username/email does not exist!": [register] never adds the e-mail to the
    [users] dict that [login] consults. *)
Theorem register_logout_login_rejected (salt e p n : string) (st : State) :
  users st !! e = None -> email_taken st e = false ->
  current_user (snd (register salt (Some (mkRegisterData e p n)) st))
    = Some (registered_user st e p n salt) /\
  run [register salt (Some (mkRegisterData e p n)); logout; login (Some (mkLoginData e p))] st
  = ([Redirect "get_all_posts" None; Redirect "get_all_posts" None;
      Redirect "login" (Some "The username/email does not exist!")],
     set_session (set_users_tbl st (users_tbl st ++ [registered_user st e p n salt])) None).
Proof.
  intros Hc Ht. rewrite (register_fresh salt e p n st Hc Ht). split.
  - unfold current_user, get_user. cbn.
    apply (find_user_fresh_id (users_tbl st) (registered_user st e p n salt)).
    reflexivity.
  - cbn [run]. rewrite (register_fresh salt e p n st Hc Ht). unfold logout.
    rewrite (@login_not_cached HS e p). { reflexivity. }
    exact Hc.
Qed.

(** C3 (code_bug).  An e-mail registered after start-up is not in the
    [users] dict, so registering it a second time passes the duplicate
    check and reaches the commit, where the UNIQUE constraint raises
    [IntegrityError] (HTTP 500) instead of the "already signed up" message;
    the table keeps its single record for that e-mail. *)
Theorem register_twice_integrity_error (salt1 salt2 e p1 p2 n1 n2 : string) (st : State) :
  users st !! e = None -> email_taken st e = false ->
  run [register salt1 (Some (mkRegisterData e p1 n1));
       register salt2 (Some (mkRegisterData e p2 n2))] st
  = ([Redirect "get_all_posts" None; Crash "IntegrityError"],
     set_session (set_users_tbl st (users_tbl st ++ [registered_user st e p1 n1 salt1]))
                 (Some (next_id (map user_id (users_tbl st))))).
Proof.
  intros Hc Ht. cbn [run]. rewrite (register_fresh salt1 e p1 n1 st Hc Ht).
  unfold register at 1. cbn. rewrite Hc.
  unfold email_taken. cbn. rewrite existsb_app. cbn.
  rewrite bool_decide_eq_true_2 by reflexivity. rewrite orb_true_r.
  reflexivity.
Qed.

(** C8 (code_bug).  After a fresh registration the stored hash verifies
    against the password (whenever the hash primitive accepts its own
    output), yet [login] with that password is refused: [login] never runs
    [check_password_hash] for an e-mail missing from the [users] dict. *)
Theorem stored_hash_verifies_login_rejected (salt e p n : string) (st : State) :
  users st !! e = None -> email_taken st e = false ->
  check_password_hash (generate_password_hash salt p) p = true ->
  let st' := snd (run [register salt (Some (mkRegisterData e p n)); logout] st) in
  first_user_by_email st' e = Some (registered_user st e p n salt) /\
  check_password_hash (password (registered_user st e p n salt)) p = true /\
  login (Some (mkLoginData e p)) st'
    = (Redirect "login" (Some "The username/email does not exist!"), st').
Proof.
  intros Hc Ht Hchk. cbn [run]. rewrite (register_fresh salt e p n st Hc Ht).
  cbn. split; [|split].
  - unfold first_user_by_email. cbn.
    assert (Hf : find (fun u => bool_decide (email u = e)) (users_tbl st) = None).
    { unfold email_taken in Ht. induction (users_tbl st) as [|u us IH]; cbn in *; [reflexivity|].
      apply orb_false_iff in Ht as [Hu Hus]. rewrite Hu. apply IH, Hus. }
    rewrite find_app_None by exact Hf. cbn.
    rewrite bool_decide_eq_true_2 by reflexivity. reflexivity.
  - exact Hchk.
  - rewrite Hc. reflexivity.
Qed.

End Accounts.

#[local] Existing Instance toy_hasher.

(** Run at the spec's end-to-end scenario: a fresh deployment, "a@x.com" /
    "pw1". *)
Lemma register_logout_login_rejected_witness :
  users st_empty !! "a@x.com" = None /\ email_taken st_empty "a@x.com" = false /\
  (current_user (snd (register "s1" (Some (mkRegisterData "a@x.com" "pw1" "A")) st_empty))
     = Some (registered_user st_empty "a@x.com" "pw1" "A" "s1") /\
   run [register "s1" (Some (mkRegisterData "a@x.com" "pw1" "A")); logout;
        login (Some (mkLoginData "a@x.com" "pw1"))] st_empty
   = ([Redirect "get_all_posts" None; Redirect "get_all_posts" None;
       Redirect "login" (Some "The username/email does not exist!")],
      set_session (set_users_tbl st_empty
        (users_tbl st_empty ++ [registered_user st_empty "a@x.com" "pw1" "A" "s1"])) None)).
Proof.
  split; [reflexivity|split; [reflexivity|]].
  apply (register_logout_login_rejected "s1" "a@x.com" "pw1" "A" st_empty); reflexivity.
Defined.

Lemma register_twice_integrity_error_witness :
  users st_empty !! "a@x.com" = None /\ email_taken st_empty "a@x.com" = false /\
  run [register "s1" (Some (mkRegisterData "a@x.com" "pw1" "A"));
       register "s2" (Some (mkRegisterData "a@x.com" "pw9" "A2"))] st_empty
  = ([Redirect "get_all_posts" None; Crash "IntegrityError"],
     set_session (set_users_tbl st_empty
       (users_tbl st_empty ++ [registered_user st_empty "a@x.com" "pw1" "A" "s1"]))
       (Some (next_id (map user_id (users_tbl st_empty))))).
Proof.
  split; [reflexivity|split; [reflexivity|]].
  apply (register_twice_integrity_error "s1" "s2" "a@x.com" "pw1" "pw9" "A" "A2" st_empty);
    reflexivity.
Defined.

Lemma stored_hash_verifies_login_rejected_witness :
  users st_empty !! "a@x.com" = None /\ email_taken st_empty "a@x.com" = false /\
  check_password_hash (generate_password_hash "s1" "pw1") "pw1" = true /\
  (let st' := snd (run [register "s1" (Some (mkRegisterData "a@x.com" "pw1" "A")); logout]
                       st_empty) in
   first_user_by_email st' "a@x.com" = Some (registered_user st_empty "a@x.com" "pw1" "A" "s1") /\
   check_password_hash (password (registered_user st_empty "a@x.com" "pw1" "A" "s1")) "pw1" = true /\
   login (Some (mkLoginData "a@x.com" "pw1")) st'
     = (Redirect "login" (Some "The username/email does not exist!"), st')).
Proof.
  split; [reflexivity|split; [reflexivity|split; [reflexivity|]]].
  apply (stored_hash_verifies_login_rejected "s1" "a@x.com" "pw1" "A" st_empty); reflexivity.
Defined.

(** ** The administrator guard *)

(** C2 (corrected).  [admin_only], which wraps the create, edit and delete
    handlers: for the user with id 1 it runs the wrapped handler; any other
    logged-in user gets 403 with the state unchanged; for an anonymous
    request its result does not depend on the wrapped handler (the handler
    is never reached) and the state is unchanged. *)
Theorem admin_only_outcomes (function : Handler) (st : State) :
  match current_user st with
  | Some u =>
      if user_id u =? 1 then admin_only function st = function st
      else admin_only function st = (Abort 403, st)
  | None =>
      (forall other : Handler, admin_only function st = admin_only other st) /\
      snd (admin_only function st) = st
  end.
Proof.
  unfold admin_only. destruct (current_user st) as [u|].
  - destruct (user_id u =? 1); reflexivity.
  - split; reflexivity.
Qed.

(** C2: an anonymous request to the edit and delete handlers gets no
    Unauthorized answer (neither a 401 nor a redirect to login): reading
    [current_user.id] raises. *)
Lemma admin_only_anonymous_crashes :
  fst (edit_post 1 None st_anon) = Crash "AttributeError" /\
  fst (delete_post 1 st_anon) = Crash "AttributeError" /\
  fst (add_new_post "June 03, 2026" None st_anon) = Crash "AttributeError".
Proof. repeat split; reflexivity. Qed.

(** ** Posts and comments *)

(** The row [show_post] inserts for a comment [t] by [u] on [x]. *)
Definition new_comment_row (st : State) (x : Z) (t : string) (u : User) : Comment :=
  mkComment (next_id (map comment_id (comments_tbl st))) t (Some (user_id u)) (Some x).

Lemma show_post_comment_added (x : Z) (t : string) (st : State) (u : User) :
  current_user st = Some u ->
  show_post x POST (Some t) st =
  (RenderPost (get_post st x) (comments_for st x),
   set_comments_tbl st (comments_tbl st ++ [new_comment_row st x t u])).
Proof. intros Hu. unfold show_post. rewrite Hu. reflexivity. Qed.

Lemma admin_only_admin (function : Handler) (st : State) (u : User) :
  current_user st = Some u -> user_id u = 1 -> admin_only function st = function st.
Proof. intros Hu Hid. unfold admin_only. rewrite Hu, Hid. reflexivity. Qed.

Lemma find_post_filtered (x : Z) (l : list BlogPost) :
  find (fun p => post_id p =? x) (List.filter (fun q => negb (post_id q =? x)) l) = None.
Proof.
  induction l as [|q l IH]; cbn; [reflexivity|].
  destruct (post_id q =? x) eqn:E; cbn; [exact IH|]. rewrite E. exact IH.
Qed.

Lemma filter_post_ids (x : Z) (l : list BlogPost) :
  Forall (fun q => post_id q <> x) (List.filter (fun q => negb (post_id q =? x)) l).
Proof.
  apply List.Forall_forall. intros q Hq. apply filter_In in Hq as [_ Hq].
  apply negb_true_iff, Z.eqb_neq in Hq. exact Hq.
Qed.

Lemma comments_nullified (x : Z) (l : list Comment) :
  List.filter (fun c => opt_eqb (blog_post_id c) x) (map (nullify_parent x) l) = [].
Proof.
  induction l as [|c l IH]; cbn; [reflexivity|].
  unfold nullify_parent at 1. destruct (opt_eqb (blog_post_id c) x) eqn:E; cbn.
  - exact IH.
  - rewrite E. exact IH.
Qed.

Lemma find_post_edited (x : Z) (f : PostData) (l : list BlogPost) (p : BlogPost) :
  find (fun q => post_id q =? x) l = Some p ->
  find (fun q => post_id q =? x)
       (map (fun q => if post_id q =? x then apply_edit f q else q) l) = Some (apply_edit f p).
Proof.
  induction l as [|q l IH]; cbn; [discriminate|].
  destruct (post_id q =? x) eqn:E; cbn.
  - rewrite E. intros Hq. injection Hq as <-. reflexivity.
  - rewrite E. exact IH.
Qed.

(** C4 (corrected).  For a post id missing from the store, viewing it
    renders the post page with no post (and the comments carrying that id)
    rather than a 404, whoever is logged in or not; for the administrator,
    editing or deleting it raises (HTTP 500) and leaves the state
    unchanged. *)
Theorem unknown_post_not_found_handling (x : Z) (form : option PostData) (st : State) :
  get_post st x = None ->
  show_post x GET None st = (RenderPost None (comments_for st x), st) /\
  (forall u, current_user st = Some u -> user_id u = 1 ->
   edit_post x form st = (Crash "AttributeError", st) /\
   delete_post x st = (Crash "UnmappedInstanceError", st)).
Proof.
  intros Hx. split.
  - unfold show_post. rewrite Hx. reflexivity.
  - intros u Hu Hid. split.
    + unfold edit_post. rewrite (admin_only_admin _ st u Hu Hid).
      unfold login_required. rewrite Hu. unfold edit_post_body. rewrite Hx. reflexivity.
    + unfold delete_post. rewrite (admin_only_admin _ st u Hu Hid).
      unfold delete_post_body. rewrite Hx. reflexivity.
Qed.

(** Run on the missing post 7, viewed anonymously and handled by the
    administrator. *)
Lemma unknown_post_not_found_handling_witness :
  get_post st_anon 7 = None /\
  show_post 7 GET None st_anon = (RenderPost None (comments_for st_anon 7), st_anon) /\
  get_post st_blog 7 = None /\
  current_user st_blog = Some (mkUser 1 "admin@x.com" "pw0$s0" "Admin") /\
  (edit_post 7 None st_blog = (Crash "AttributeError", st_blog) /\
   delete_post 7 st_blog = (Crash "UnmappedInstanceError", st_blog)).
Proof.
  split; [reflexivity|split].
  { exact (proj1 (unknown_post_not_found_handling 7 None st_anon eq_refl)). }
  split; [reflexivity|split; [reflexivity|]].
  apply (proj2 (unknown_post_not_found_handling 7 None st_blog eq_refl)
           (mkUser 1 "admin@x.com" "pw0$s0" "Admin")); reflexivity.
Defined.

(** C4: post 7 does not exist; no handler answers 404. *)
Lemma unknown_post_no_404 :
  show_post 7 GET None st_blog = (RenderPost None [], st_blog) /\
  fst (edit_post 7 None st_blog) = Crash "AttributeError" /\
  fst (delete_post 7 st_blog) = Crash "UnmappedInstanceError".
Proof. repeat split; reflexivity. Qed.

(** C5 (corrected).  A comment submitted by a logged-in user with a valid
    form on a post id missing from the store is inserted all the same, with
    [blog_post_id] set to that id; the page renders with no post. *)
Theorem comment_on_unknown_post_inserted (x : Z) (t : string) (st : State) (u : User) :
  current_user st = Some u -> get_post st x = None ->
  show_post x POST (Some t) st =
  (RenderPost None (comments_for st x),
   set_comments_tbl st (comments_tbl st ++
     [mkComment (next_id (map comment_id (comments_tbl st))) t (Some (user_id u)) (Some x)])).
Proof.
  intros Hu Hx. rewrite (show_post_comment_added x t st u Hu), Hx. reflexivity.
Qed.

Lemma comment_on_unknown_post_inserted_witness :
  current_user st_bob = Some (mkUser 2 "bob@x.com" "pw2$s2" "Bob") /\ get_post st_bob 7 = None /\
  show_post 7 POST (Some "hi") st_bob =
  (RenderPost None (comments_for st_bob 7),
   set_comments_tbl st_bob (comments_tbl st_bob ++
     [mkComment (next_id (map comment_id (comments_tbl st_bob))) "hi"
                (Some (user_id (mkUser 2 "bob@x.com" "pw2$s2" "Bob"))) (Some 7)])).
Proof.
  split; [reflexivity|split; [reflexivity|]].
  apply (comment_on_unknown_post_inserted 7 "hi" st_bob (mkUser 2 "bob@x.com" "pw2$s2" "Bob"));
    reflexivity.
Defined.

(** C5: Bob comments on the missing post 7; no NotFound, one row added. *)
Lemma comment_on_missing_post_added :
  get_post st_bob 7 = None /\
  show_post 7 POST (Some "hi") st_bob =
  (RenderPost None [],
   set_comments_tbl st_bob [mkComment 1 "first" (Some 2) (Some 1);
                            mkComment 2 "hi" (Some 2) (Some 7)]).
Proof. split; reflexivity. Qed.

(** C6 (confirmed).  A valid comment by a logged-in user on an existing post
    [x] appends exactly one row, referencing [x] and the commenter; viewing
    [x] afterwards lists the earlier comments of [x] in order, then the new
    one. *)
Theorem comment_appended_in_order (x : Z) (t : string) (st : State) (u : User) (p : BlogPost) :
  current_user st = Some u -> get_post st x = Some p ->
  let st' := snd (show_post x POST (Some t) st) in
  exists c : Comment,
    comments_tbl st' = comments_tbl st ++ [c] /\
    blog_post_id c = Some x /\ commenter_id c = Some (user_id u) /\ text c = t /\
    show_post x GET None st' = (RenderPost (Some p) (comments_for st x ++ [c]), st').
Proof.
  intros Hu Hx. rewrite (show_post_comment_added x t st u Hu). cbn [snd].
  exists (new_comment_row st x t u).
  split; [reflexivity|split; [reflexivity|split; [reflexivity|split; [reflexivity|]]]].
  unfold show_post. unfold get_post at 1. cbn. fold (get_post st x). rewrite Hx.
  unfold comments_for. cbn. rewrite List.filter_app. cbn. rewrite Z.eqb_refl. reflexivity.
Qed.

Lemma comment_appended_in_order_witness :
  current_user st_bob = Some (mkUser 2 "bob@x.com" "pw2$s2" "Bob") /\
  get_post st_bob 1 = Some (mkBlogPost 1 (Some 1) "T" "S" "June 01, 2026" "B" "I") /\
  (let st' := snd (show_post 1 POST (Some "second") st_bob) in
   exists c : Comment,
     comments_tbl st' = comments_tbl st_bob ++ [c] /\
     blog_post_id c = Some 1 /\ commenter_id c = Some (user_id (mkUser 2 "bob@x.com" "pw2$s2" "Bob")) /\
     text c = "second" /\
     show_post 1 GET None st' =
       (RenderPost (Some (mkBlogPost 1 (Some 1) "T" "S" "June 01, 2026" "B" "I"))
                   (comments_for st_bob 1 ++ [c]), st')).
Proof.
  split; [reflexivity|split; [reflexivity|]].
  apply (comment_appended_in_order 1 "second" st_bob (mkUser 2 "bob@x.com" "pw2$s2" "Bob")
           (mkBlogPost 1 (Some 1) "T" "S" "June 01, 2026" "B" "I")); reflexivity.
Defined.

(** C7 (corrected).  When the administrator deletes an existing post [x]:
    the post leaves the listing, viewing [x] afterwards renders the post
    page with no post and no comments (not a 404), and every comment of [x]
    is kept with its post reference cleared (orphaned); other rows stay. *)
Theorem delete_post_effects (x : Z) (st : State) (u : User) (p : BlogPost) :
  current_user st = Some u -> user_id u = 1 -> get_post st x = Some p ->
  let st' := snd (delete_post x st) in
  fst (delete_post x st) = Redirect "get_all_posts" None /\
  posts_tbl st' = List.filter (fun q => negb (post_id q =? x)) (posts_tbl st) /\
  (exists l, get_all_posts st' = (RenderIndex l, st') /\ Forall (fun q => post_id q <> x) l) /\
  show_post x GET None st' = (RenderPost None [], st') /\
  comments_tbl st' = map (nullify_parent x) (comments_tbl st).
Proof.
  intros Hu Hid Hx. unfold delete_post. rewrite (admin_only_admin _ st u Hu Hid).
  unfold delete_post_body. rewrite Hx. cbn [fst snd].
  split; [reflexivity|split; [reflexivity|split; [|split; [|reflexivity]]]].
  - eexists. split; [reflexivity|]. apply filter_post_ids.
  - unfold show_post, get_post, comments_for. cbn.
    rewrite find_post_filtered, comments_nullified. reflexivity.
Qed.

Lemma delete_post_effects_witness :
  current_user st_blog = Some (mkUser 1 "admin@x.com" "pw0$s0" "Admin") /\
  user_id (mkUser 1 "admin@x.com" "pw0$s0" "Admin") = 1 /\
  get_post st_blog 1 = Some (mkBlogPost 1 (Some 1) "T" "S" "June 01, 2026" "B" "I") /\
  (let st' := snd (delete_post 1 st_blog) in
   fst (delete_post 1 st_blog) = Redirect "get_all_posts" None /\
   posts_tbl st' = List.filter (fun q => negb (post_id q =? 1)) (posts_tbl st_blog) /\
   (exists l, get_all_posts st' = (RenderIndex l, st') /\ Forall (fun q => post_id q <> 1) l) /\
   show_post 1 GET None st' = (RenderPost None [], st') /\
   comments_tbl st' = map (nullify_parent 1) (comments_tbl st_blog)).
Proof.
  split; [reflexivity|split; [reflexivity|split; [reflexivity|]]].
  apply (delete_post_effects 1 st_blog (mkUser 1 "admin@x.com" "pw0$s0" "Admin")
           (mkBlogPost 1 (Some 1) "T" "S" "June 01, 2026" "B" "I")); reflexivity.
Defined.

(** C7: after deleting post 1, viewing it gives no 404, and Bob's comment
    survives with no post. *)
Lemma deleted_post_view_no_404 :
  let st' := snd (delete_post 1 st_blog) in
  show_post 1 GET None st' = (RenderPost None [], st') /\
  comments_tbl st' = [mkComment 1 "first" (Some 2) None].
Proof. split; reflexivity. Qed.

(** C9 (corrected).  For the administrator: editing a missing post raises
    (HTTP 500) with the state unchanged; a valid edit of an existing post
    whose new title no other post carries overwrites title, subtitle,
    img_url and body, keeps id, author and date, and touches no other row
    or table; if another post already carries the new title, the commit
    raises [IntegrityError] (HTTP 500) and nothing changes. *)
Theorem edit_post_effects (x : Z) (st : State) (u : User) :
  current_user st = Some u -> user_id u = 1 ->
  (get_post st x = None -> forall form, edit_post x form st = (Crash "AttributeError", st)) /\
  (forall p f, get_post st x = Some p -> title_taken_by_other st x (form_title f) = false ->
   let st' := snd (edit_post x (Some f) st) in
   fst (edit_post x (Some f) st) = Redirect "show_post" None /\
   posts_tbl st' = map (fun q => if post_id q =? x then apply_edit f q else q) (posts_tbl st) /\
   users_tbl st' = users_tbl st /\ comments_tbl st' = comments_tbl st /\
   exists q, get_post st' x = Some q /\
     title q = form_title f /\ subtitle q = form_subtitle f /\
     body q = form_body f /\ img_url q = form_img_url f /\
     post_id q = post_id p /\ author_id q = author_id p /\ date q = date p) /\
  (forall p f, get_post st x = Some p -> title_taken_by_other st x (form_title f) = true ->
   edit_post x (Some f) st = (Crash "IntegrityError", st)).
Proof.
  intros Hu Hid. split; [|split].
  - intros Hx form. unfold edit_post. rewrite (admin_only_admin _ st u Hu Hid).
    unfold login_required. rewrite Hu. unfold edit_post_body. rewrite Hx. reflexivity.
  - intros p f Hx Ht. unfold edit_post. rewrite (admin_only_admin _ st u Hu Hid).
    unfold login_required. rewrite Hu. unfold edit_post_body. rewrite Hx, Ht. cbn [fst snd].
    split; [reflexivity|split; [reflexivity|split; [reflexivity|split; [reflexivity|]]]].
    exists (apply_edit f p). split.
    + unfold get_post. cbn. apply find_post_edited. exact Hx.
    + repeat split.
  - intros p f Hx Ht. unfold edit_post. rewrite (admin_only_admin _ st u Hu Hid).
    unfold login_required. rewrite Hu. unfold edit_post_body. rewrite Hx, Ht. reflexivity.
Qed.

Lemma edit_post_effects_witness :
  current_user st_blog = Some (mkUser 1 "admin@x.com" "pw0$s0" "Admin") /\
  user_id (mkUser 1 "admin@x.com" "pw0$s0" "Admin") = 1 /\
  ((get_post st_blog 2 = None -> forall form, edit_post 2 form st_blog = (Crash "AttributeError", st_blog)) /\
   (forall p f, get_post st_blog 2 = Some p -> title_taken_by_other st_blog 2 (form_title f) = false ->
    let st' := snd (edit_post 2 (Some f) st_blog) in
    fst (edit_post 2 (Some f) st_blog) = Redirect "show_post" None /\
    posts_tbl st' = map (fun q => if post_id q =? 2 then apply_edit f q else q) (posts_tbl st_blog) /\
    users_tbl st' = users_tbl st_blog /\ comments_tbl st' = comments_tbl st_blog /\
    exists q, get_post st' 2 = Some q /\
      title q = form_title f /\ subtitle q = form_subtitle f /\
      body q = form_body f /\ img_url q = form_img_url f /\
      post_id q = post_id p /\ author_id q = author_id p /\ date q = date p) /\
   (forall p f, get_post st_blog 2 = Some p -> title_taken_by_other st_blog 2 (form_title f) = true ->
    edit_post 2 (Some f) st_blog = (Crash "IntegrityError", st_blog))).
Proof.
  split; [reflexivity|split; [reflexivity|]].
  apply (edit_post_effects 2 st_blog (mkUser 1 "admin@x.com" "pw0$s0" "Admin")); reflexivity.
Defined.

(** C9: editing the missing post 7 raises rather than answering 404, and
    renaming post 1 to the title of post 2 raises at the commit. *)
Lemma edit_post_not_always_replacing :
  edit_post 7 (Some (mkPostData "V" "S3" "B3" "I3")) st_blog = (Crash "AttributeError", st_blog) /\
  edit_post 1 (Some (mkPostData "U" "S3" "B3" "I3")) st_blog = (Crash "IntegrityError", st_blog).
Proof. split; reflexivity. Qed.

(** C10 (confirmed).  A POST to [show_post] inserts a comment exactly when
    the form validates and the user is logged in; otherwise it redirects to
    the login page with the flash message and changes nothing. *)
Theorem show_post_comment_gate (x : Z) (form : option string) (st : State) :
  match form, current_user st with
  | Some t, Some u =>
      exists c : Comment, text c = t /\ commenter_id c = Some (user_id u) /\
        show_post x POST form st =
        (RenderPost (get_post st x) (comments_for st x),
         set_comments_tbl st (comments_tbl st ++ [c]))
  | _, _ =>
      show_post x POST form st =
      (Redirect "login" (Some "You need to login or register to comment"), st)
  end.
Proof.
  destruct form as [t|]; destruct (current_user st) as [u|] eqn:Hu.
  - exists (new_comment_row st x t u). split; [reflexivity|split; [reflexivity|]].
    apply show_post_comment_added. exact Hu.
  - unfold show_post. rewrite Hu. reflexivity.
  - reflexivity.
  - reflexivity.
Qed.

(** ** The whole application: the routes as one dispatcher *)

(** [about] ([/about]) and [contact] ([/contact]): static pages. *)
Definition about : Handler := fun st => (RenderForm "about.html", st).

Definition contact : Handler := fun st => (RenderForm "contact.html", st).

(** One request to one of the routes of main.py. *)
Inductive Request :=
  | ReqGetAllPosts
  | ReqRegister (salt : string) (form : option RegisterData)
  | ReqLogin (form : option LoginData)
  | ReqLogout
  | ReqShowPost (pid : Z) (method : Method) (form : option string)
  | ReqAbout
  | ReqContact
  | ReqNewPost (today : string) (form : option PostData)
  | ReqEditPost (pid : Z) (form : option PostData)
  | ReqDeletePost (pid : Z).

Section Serving.
Context {HS : Hasher}.

(** Flask's URL routing. *)
Definition dispatch (r : Request) : Handler :=
  match r with
  | ReqGetAllPosts => get_all_posts
  | ReqRegister salt form => @register HS salt form
  | ReqLogin form => @login HS form
  | ReqLogout => logout
  | ReqShowPost pid m form => show_post pid m form
  | ReqAbout => about
  | ReqContact => contact
  | ReqNewPost today form => add_new_post today form
  | ReqEditPost pid form => edit_post pid form
  | ReqDeletePost pid => delete_post pid
  end.

(** The state after serving the requests [rs] in order. *)
Definition serve (rs : list Request) (st : State) : State :=
  snd (run (map dispatch rs) st).

End Serving.

(** The ways one request can change the state, read off the handlers. *)
Inductive Effect (st : State) : State -> Prop :=
  | eff_none : Effect st st
  | eff_session (s : option Z) : Effect st (set_session st s)
  | eff_add_user (u : User) :
      user_id u = next_id (map user_id (users_tbl st)) ->
      email_taken st (email u) = false ->
      Effect st (set_session (set_users_tbl st (users_tbl st ++ [u])) (Some (user_id u)))
  | eff_add_comment (c : Comment) (u : User) :
      current_user st = Some u ->
      comment_id c = next_id (map comment_id (comments_tbl st)) ->
      commenter_id c = Some (user_id u) ->
      Effect st (set_comments_tbl st (comments_tbl st ++ [c]))
  | eff_add_post (p : BlogPost) (u : User) :
      current_user st = Some u ->
      post_id p = next_id (map post_id (posts_tbl st)) ->
      author_id p = Some (user_id u) ->
      existsb (fun q => bool_decide (title q = title p)) (posts_tbl st) = false ->
      Effect st (set_posts_tbl st (posts_tbl st ++ [p]))
  | eff_edit (x : Z) (f : PostData) (p : BlogPost) :
      get_post st x = Some p ->
      title_taken_by_other st x (form_title f) = false ->
      Effect st (set_posts_tbl st (map (fun q => if post_id q =? x then apply_edit f q else q)
                                      (posts_tbl st)))
  | eff_delete (x : Z) :
      Effect st (set_comments_tbl
                   (set_posts_tbl st (List.filter (fun q => negb (post_id q =? x)) (posts_tbl st)))
                   (map (nullify_parent x) (comments_tbl st))).

Lemma dispatch_effect {HS : Hasher} (r : Request) (st : State) :
  Effect st (snd (dispatch r st)).
Proof.
  destruct r as [|salt form|form| |pid m form| | |today form|pid form|pid]; cbn [dispatch].
  - apply eff_none.
  - unfold register. destruct form as [f|]; [|apply eff_none].
    destruct (users st !! reg_email f); [apply eff_none|].
    destruct (email_taken st (reg_email f)) eqn:E; [apply eff_none|].
    apply eff_add_user; [reflexivity|exact E].
  - unfold login. destruct form as [f|]; [|apply eff_none].
    destruct (users st !! login_email f); [|apply eff_none].
    destruct (first_user_by_email st (login_email f)) as [u|]; [|apply eff_none].
    destruct (check_password_hash (password u) (login_password f)); [apply eff_session|apply eff_none].
  - apply eff_session.
  - unfold show_post. destruct m; [apply eff_none|].
    destruct form as [t|]; [|apply eff_none].
    destruct (current_user st) as [u|] eqn:Hu; [|apply eff_none].
    eapply eff_add_comment; [exact Hu|reflexivity|reflexivity].
  - apply eff_none.
  - apply eff_none.
  - unfold add_new_post, admin_only. destruct (current_user st) as [u|] eqn:Hu; [|apply eff_none].
    destruct (negb (user_id u =? 1)); [apply eff_none|].
    unfold add_new_post_body. destruct form as [f|]; [|apply eff_none].
    destruct (existsb _ (posts_tbl st)) eqn:E; [apply eff_none|].
    eapply eff_add_post; [exact Hu|reflexivity|cbn; rewrite Hu; reflexivity|exact E].
  - unfold edit_post, admin_only. destruct (current_user st) as [u|] eqn:Hu; [|apply eff_none].
    destruct (negb (user_id u =? 1)); [apply eff_none|].
    unfold login_required. rewrite Hu. unfold edit_post_body.
    destruct (get_post st pid) as [p|] eqn:Hp; [|apply eff_none].
    destruct form as [f|]; [|apply eff_none].
    destruct (title_taken_by_other st pid (form_title f)) eqn:E; [apply eff_none|].
    eapply eff_edit; [exact Hp|exact E].
  - unfold delete_post, admin_only. destruct (current_user st) as [u|] eqn:Hu; [|apply eff_none].
    destruct (negb (user_id u =? 1)); [apply eff_none|].
    unfold delete_post_body. destruct (get_post st pid); [apply eff_delete|apply eff_none].
Qed.

Lemma run_effects {HS : Hasher} (P : State -> Prop) (rs : list Request) (st : State) :
  (forall st1 st2, Effect st1 st2 -> P st1 -> P st2) -> P st -> P (serve rs st).
Proof.
  intros Hstep. unfold serve. revert st.
  induction rs as [|r rs IH]; intros st Hst; cbn; [exact Hst|].
  pose proof (dispatch_effect r st) as He.
  destruct (dispatch r st) as [resp st1] eqn:Ed. cbn in He.
  specialize (IH st1 (Hstep _ _ He Hst)).
  destruct (run (map dispatch rs) st1) as [resps st2]. exact IH.
Qed.

(** ** Invariants kept by every request *)

Lemma next_id_fresh (l : list Z) : ~ In (next_id l) l.
Proof.
  intros Hin. pose proof (proj1 (List.Forall_forall _ _) (next_id_gt l) _ Hin) as H.
  cbv beta in H. lia.
Qed.

Lemma existsb_false_not_in {A} (g : A -> string) (e : string) (l : list A) :
  existsb (fun a => bool_decide (g a = e)) l = false -> ~ In e (map g l).
Proof.
  intros H Hin. apply in_map_iff in Hin as [a [Ha Hin]].
  assert (Ht : existsb (fun a => bool_decide (g a = e)) l = true).
  { apply existsb_exists. exists a. split; [exact Hin|]. apply bool_decide_eq_true_2. exact Ha. }
  congruence.
Qed.

Lemma NoDup_snoc {A} (l : list A) (a : A) : List.NoDup l -> ~ In a l -> List.NoDup (l ++ [a]).
Proof.
  intros Hl Ha. apply List.NoDup_app.
  - exact Hl.
  - apply List.NoDup_cons_iff. split; [intros []|apply List.NoDup_nil].
  - intros b Hb [<-|[]]. exact (Ha Hb).
Qed.

Lemma NoDup_map_filter {A B} (f : A -> B) (P : A -> bool) (l : list A) :
  List.NoDup (map f l) -> List.NoDup (map f (List.filter P l)).
Proof.
  induction l as [|a l IH]; cbn; [tauto|].
  intros Hnd. apply List.NoDup_cons_iff in Hnd as [Hna Hnd].
  destruct (P a); cbn; [|exact (IH Hnd)].
  constructor; [|exact (IH Hnd)].
  intros Hin. apply in_map_iff in Hin as [b [Hb Hin]]. apply filter_In in Hin as [Hin _].
  apply Hna. rewrite <- Hb. apply in_map. exact Hin.
Qed.

Lemma map_post_id_edit (x : Z) (f : PostData) (l : list BlogPost) :
  map post_id (map (fun q => if post_id q =? x then apply_edit f q else q) l) = map post_id l.
Proof. induction l as [|q l IH]; cbn; [reflexivity|]. rewrite IH. destruct (post_id q =? x); reflexivity. Qed.

Lemma map_comment_id_nullify (x : Z) (l : list Comment) :
  map comment_id (map (nullify_parent x) l) = map comment_id l.
Proof. induction l as [|c l IH]; cbn; [reflexivity|]. rewrite IH. unfold nullify_parent. destruct (opt_eqb _ _); reflexivity. Qed.

Lemma title_taken_by_other_false (x : Z) (t : string) (l : list BlogPost) (q : BlogPost) :
  existsb (fun q => negb (post_id q =? x) && bool_decide (title q = t)) l = false ->
  In q l -> post_id q <> x -> title q <> t.
Proof.
  intros H Hin Hx Ht. apply (existsb_false_not_in title t (List.filter (fun q => negb (post_id q =? x)) l)).
  - clear Hin. induction l as [|a l IH]; cbn in *; [reflexivity|].
    destruct (post_id a =? x); cbn in *; [exact (IH H)|].
    apply orb_false_iff in H as [H1 H2]. rewrite H1. exact (IH H2).
  - apply in_map_iff. exists q. split; [exact Ht|]. apply filter_In. split; [exact Hin|].
    apply negb_true_iff, Z.eqb_neq. exact Hx.
Qed.

Lemma NoDup_titles_edit (x : Z) (f : PostData) (l : list BlogPost) :
  List.NoDup (map post_id l) -> List.NoDup (map title l) ->
  existsb (fun q => negb (post_id q =? x) && bool_decide (title q = form_title f)) l = false ->
  List.NoDup (map title (map (fun q => if post_id q =? x then apply_edit f q else q) l)).
Proof.
  intros Hid Ht Hfree.
  assert (Hother : forall q, In q l -> post_id q <> x -> title q <> form_title f)
    by (intros q; exact (title_taken_by_other_false x (form_title f) l q Hfree)).
  clear Hfree. revert Hid Ht Hother.
  induction l as [|a l IH]; cbn; intros Hid Ht Hother; [constructor|].
  apply List.NoDup_cons_iff in Hid as [Hida Hid]. apply List.NoDup_cons_iff in Ht as [Hta Ht].
  constructor.
  - rewrite map_map. intros Hin. apply in_map_iff in Hin as [q [Hq Hin]].
    destruct (Z.eqb_spec (post_id a) x) as [Ea|Ea];
      destruct (Z.eqb_spec (post_id q) x) as [Eq|Eq]; cbn in Hq.
    + apply Hida. rewrite Ea, <- Eq. apply in_map. exact Hin.
    + apply (Hother q (or_intror Hin) Eq). exact Hq.
    + apply (Hother a (or_introl eq_refl) Ea). exact (eq_sym Hq).
    + apply Hta. rewrite <- Hq. apply in_map. exact Hin.
  - apply IH; [exact Hid|exact Ht|]. intros q Hin. apply Hother. right. exact Hin.
Qed.

(** Primary keys and UNIQUE columns: user ids and e-mails, post ids and
    titles, comment ids are each free of duplicates. *)
Definition wf_keys (st : State) : Prop :=
  List.NoDup (map user_id (users_tbl st)) /\ List.NoDup (map email (users_tbl st)) /\
  List.NoDup (map post_id (posts_tbl st)) /\ List.NoDup (map title (posts_tbl st)) /\
  List.NoDup (map comment_id (comments_tbl st)).

Lemma effect_wf_keys (st st' : State) : Effect st st' -> wf_keys st -> wf_keys st'.
Proof.
  intros He (Hu & He' & Hp & Ht & Hc). destruct He as
    [|s|u Hid Hem|c u Hcu Hid Hcm|p u Hcu Hid Ha Htl|x f p Hx Htl|x]; unfold wf_keys; cbn.
  - repeat split; assumption.
  - repeat split; assumption.
  - rewrite !List.map_app. cbn. repeat split; try assumption.
    + apply NoDup_snoc; [exact Hu|]. rewrite Hid. apply next_id_fresh.
    + apply NoDup_snoc; [exact He'|]. apply existsb_false_not_in. exact Hem.
  - rewrite List.map_app. cbn. repeat split; try assumption.
    apply NoDup_snoc; [exact Hc|]. rewrite Hid. apply next_id_fresh.
  - rewrite !List.map_app. cbn. repeat split; try assumption.
    + apply NoDup_snoc; [exact Hp|]. rewrite Hid. apply next_id_fresh.
    + apply NoDup_snoc; [exact Ht|]. apply existsb_false_not_in. exact Htl.
  - repeat split; try assumption.
    + rewrite map_post_id_edit. exact Hp.
    + apply NoDup_titles_edit; assumption.
  - repeat split; try assumption.
    + apply NoDup_map_filter. exact Hp.
    + apply NoDup_map_filter. exact Ht.
    + rewrite map_comment_id_nullify. exact Hc.
Qed.

Lemma current_user_in (st : State) (u : User) : current_user st = Some u -> In u (users_tbl st).
Proof.
  unfold current_user, get_user. destruct (session st); [|discriminate].
  intros Hf. apply find_some in Hf as [Hin _]. exact Hin.
Qed.

Lemma effect_users_extend (st st' : State) :
  Effect st st' -> exists l, users_tbl st' = users_tbl st ++ l.
Proof.
  intros He; destruct He; cbn;
    solve [exists []; rewrite app_nil_r; reflexivity | eexists; reflexivity].
Qed.

Lemma effect_users_dict (st st' : State) : Effect st st' -> users st' = users st.
Proof. intros He; destruct He; reflexivity. Qed.

Lemma effect_comment_ids (st st' : State) :
  Effect st st' -> exists l, map comment_id (comments_tbl st') = map comment_id (comments_tbl st) ++ l.
Proof.
  intros He; destruct He; cbn;
    try solve [exists []; rewrite app_nil_r; reflexivity].
  - rewrite List.map_app. eexists; reflexivity.
  - rewrite map_comment_id_nullify. exists []; rewrite app_nil_r; reflexivity.
Qed.

(** Every post names an existing user as author, every comment an existing
    user as commenter. *)
Definition refs_ok (st : State) : Prop :=
  Forall (fun p => exists u, In u (users_tbl st) /\ author_id p = Some (user_id u)) (posts_tbl st) /\
  Forall (fun c => exists u, In u (users_tbl st) /\ commenter_id c = Some (user_id u)) (comments_tbl st).

Lemma refs_ok_weaken (st st' : State) :
  (exists l, users_tbl st' = users_tbl st ++ l) ->
  Forall (fun p => exists u, In u (users_tbl st) /\ author_id p = Some (user_id u)) (posts_tbl st') ->
  Forall (fun c => exists u, In u (users_tbl st) /\ commenter_id c = Some (user_id u)) (comments_tbl st') ->
  refs_ok st'.
Proof.
  intros [l Hl] Hp Hc. unfold refs_ok. rewrite Hl. split.
  - eapply List.Forall_impl; [|exact Hp]. intros p [u [Hu Ha]].
    exists u. split; [apply in_or_app; left; exact Hu|exact Ha].
  - eapply List.Forall_impl; [|exact Hc]. intros c [u [Hu Ha]].
    exists u. split; [apply in_or_app; left; exact Hu|exact Ha].
Qed.

Lemma effect_refs_ok (st st' : State) : Effect st st' -> refs_ok st -> refs_ok st'.
Proof.
  intros He [Hp Hc]. apply (refs_ok_weaken st st' (effect_users_extend st st' He)).
  - destruct He as [|s|u Hid Hem|c u Hcu Hid Hcm|p u Hcu Hid Ha Htl|x f p Hx Htl|x]; cbn;
      try exact Hp.
    + apply List.Forall_app. split; [exact Hp|]. constructor; [|constructor].
      exists u. split; [apply current_user_in; exact Hcu|exact Ha].
    + apply List.Forall_map. eapply List.Forall_impl; [|exact Hp].
      intros q Hq. destruct (post_id q =? x); exact Hq.
    + apply List.Forall_forall. intros q Hq. apply filter_In in Hq as [Hq _].
      exact (proj1 (List.Forall_forall _ _) Hp q Hq).
  - destruct He as [|s|u Hid Hem|c u Hcu Hid Hcm|p u Hcu Hid Ha Htl|x f p Hx Htl|x]; cbn;
      try exact Hc.
    + apply List.Forall_app. split; [exact Hc|]. constructor; [|constructor].
      exists u. split; [apply current_user_in; exact Hcu|exact Hcm].
    + apply List.Forall_map. eapply List.Forall_impl; [|exact Hc].
      intros c Hq. unfold nullify_parent. destruct (opt_eqb _ _); exact Hq.
Qed.

Lemma build_users_cache_lookup (us : list User) (e : string) :
  build_users_cache us !! e =
  if existsb (fun u => bool_decide (email u = e)) us then Some "Secret" else None.
Proof.
  induction us as [|u us IH]; cbn; [reflexivity|].
  rewrite lookup_insert. destruct (decide (email u = e)) as [E|E].
  - rewrite bool_decide_eq_true_2 by exact E. reflexivity.
  - rewrite bool_decide_eq_false_2 by exact E. exact IH.
Qed.

Lemma serve_users_dict {HS : Hasher} (rs : list Request) (st : State) :
  users (serve rs st) = users st.
Proof.
  apply (run_effects (fun st' => users st' = users st)); [|reflexivity].
  intros st1 st2 He H1. rewrite (effect_users_dict _ _ He). exact H1.
Qed.

(** ** Properties of the whole application *)

Section Application.
Context {HS : Hasher}.

(** The module-level [users] dict is never written after start-up: after
    any sequence of requests it holds exactly the e-mails that were in the
    [users] table at start-up. *)
Theorem users_dict_fixed_at_startup (rs : list Request) (us : list User)
    (ps : list BlogPost) (cs : list Comment) (e : string) :
  users (serve rs (startup us ps cs)) !! e =
  if existsb (fun u => bool_decide (email u = e)) us then Some "Secret" else None.
Proof. rewrite serve_users_dict. apply build_users_cache_lookup. Qed.

(** Whatever requests were served since start-up, a login with an e-mail
    that was not in the [users] table at start-up is refused with "The
    username/email does not exist!" and changes nothing. *)
Theorem login_refused_unless_known_at_startup (rs : list Request) (us : list User)
    (ps : list BlogPost) (cs : list Comment) (e p : string) :
  existsb (fun u => bool_decide (email u = e)) us = false ->
  let st := serve rs (startup us ps cs) in
  @login HS (Some (mkLoginData e p)) st
  = (Redirect "login" (Some "The username/email does not exist!"), st).
Proof.
  intros Hnot st. apply login_not_cached.
  unfold st. rewrite serve_users_dict. cbn. rewrite build_users_cache_lookup, Hnot. reflexivity.
Qed.

(** No request modifies or deletes a user row: the [users] table after any
    sequence of requests extends the one before. *)
Theorem users_table_only_grows (rs : list Request) (st : State) :
  exists l, users_tbl (serve rs st) = users_tbl st ++ l.
Proof.
  apply (run_effects (fun st' => exists l, users_tbl st' = users_tbl st ++ l)).
  - intros st1 st2 He [l1 H1]. destruct (effect_users_extend _ _ He) as [l2 H2].
    exists (l1 ++ l2). rewrite H2, H1, app_assoc. reflexivity.
  - exists []. rewrite app_nil_r. reflexivity.
Qed.

(** No request deletes a comment: the comment ids after any sequence of
    requests extend those before (deleting a post keeps its comments). *)
Theorem comments_never_deleted (rs : list Request) (st : State) :
  exists l, map comment_id (comments_tbl (serve rs st)) = map comment_id (comments_tbl st) ++ l.
Proof.
  apply (run_effects (fun st' => exists l,
           map comment_id (comments_tbl st') = map comment_id (comments_tbl st) ++ l)).
  - intros st1 st2 He [l1 H1]. destruct (effect_comment_ids _ _ He) as [l2 H2].
    exists (l1 ++ l2). rewrite H2, H1, app_assoc. reflexivity.
  - exists []. rewrite app_nil_r. reflexivity.
Qed.

(** Starting from a store whose keys are unique, every sequence of requests
    keeps user ids, e-mails, post ids, post titles and comment ids free of
    duplicates (new rows get the next id; the UNIQUE checks reject the
    rest). *)
Theorem keys_stay_unique (rs : list Request) (st : State) :
  wf_keys st -> wf_keys (serve rs st).
Proof. apply run_effects. exact effect_wf_keys. Qed.

(** Starting from a store where every post's author and every comment's
    commenter is an existing user, every sequence of requests keeps it so. *)
Theorem user_references_stay_valid (rs : list Request) (st : State) :
  refs_ok st -> refs_ok (serve rs st).
Proof. apply run_effects. exact effect_refs_ok. Qed.

(** Requests other than register, login and logout never change who the
    current user is. *)
Theorem current_user_kept (r : Request) (st : State) :
  match r with
  | ReqRegister _ _ | ReqLogin _ | ReqLogout => True
  | _ => current_user (snd (dispatch r st)) = current_user st
  end.
Proof.
  assert (Hkeep : forall st', session st' = session st -> users_tbl st' = users_tbl st ->
                  current_user st' = current_user st).
  { intros st' Hs Hu. unfold current_user, get_user. rewrite Hs, Hu. reflexivity. }
  destruct r; try exact I; cbn [dispatch]; apply Hkeep;
    unfold get_all_posts, show_post, about, contact, add_new_post, edit_post, delete_post,
      admin_only, login_required, add_new_post_body, edit_post_body, delete_post_body;
    repeat case_match; reflexivity.
Qed.

End Application.

(** ** Login, registration and post creation *)

Lemma find_user_unique_id (l : list User) (u : User) :
  List.NoDup (map user_id l) -> In u l -> find (fun v => user_id v =? user_id u) l = Some u.
Proof.
  induction l as [|v l IH]; cbn; [intros _ []|].
  intros Hnd Hin. apply List.NoDup_cons_iff in Hnd as [Hv Hnd].
  destruct Hin as [<-|Hin]; [rewrite Z.eqb_refl; reflexivity|].
  destruct (Z.eqb_spec (user_id v) (user_id u)) as [E|E]; [|exact (IH Hnd Hin)].
  exfalso. apply Hv. rewrite E. apply in_map. exact Hin.
Qed.

Lemma find_post_fresh_id (l : list BlogPost) (p : BlogPost) :
  post_id p = next_id (map post_id l) ->
  find (fun q => post_id q =? post_id p) (l ++ [p]) = Some p.
Proof.
  intros Hid. rewrite find_app_None.
  - cbn. rewrite Z.eqb_refl. reflexivity.
  - pose proof (next_id_fresh (map post_id l)) as Hf. rewrite <- Hid in Hf. clear Hid.
    induction l as [|q l IH]; cbn in *; [reflexivity|].
    destruct (Z.eqb_spec (post_id q) (post_id p)) as [E|E]; [exfalso; apply Hf; left; exact E|].
    apply IH. intros Hin. apply Hf. right. exact Hin.
Qed.

(** The post [add_new_post] creates from form [f] on [today]. *)
Definition created_post (st : State) (today : string) (f : PostData) (author : Z) : BlogPost :=
  mkBlogPost (next_id (map post_id (posts_tbl st))) (Some author)
             (form_title f) (form_subtitle f) today (form_body f) (form_img_url f).

Section Handlers.
Context {HS : Hasher}.

(** A login whose e-mail is in the [users] dict and whose password checks
    against the first user row with that e-mail stores that user's id in the
    session, which then resolves to that user (user ids being unique);
    nothing else changes. *)
Theorem login_succeeds (e p : string) (st : State) (u : User) :
  is_Some (users st !! e) -> first_user_by_email st e = Some u ->
  check_password_hash (password u) p = true -> List.NoDup (map user_id (users_tbl st)) ->
  @login HS (Some (mkLoginData e p)) st
    = (Redirect "get_all_posts" None, set_session st (Some (user_id u))) /\
  current_user (set_session st (Some (user_id u))) = Some u.
Proof.
  intros [v Hv] Hu Hchk Hnd. split.
  - unfold login. cbn. rewrite Hv, Hu, Hchk. reflexivity.
  - unfold current_user, get_user. cbn. apply find_user_unique_id; [exact Hnd|].
    unfold first_user_by_email in Hu. apply find_some in Hu as [Hin _]. exact Hin.
Qed.

(** A login whose password does not check against the stored hash is
    refused with "The password is incorrect, Please try again" and changes
    nothing, the session included. *)
Theorem login_wrong_password (e p : string) (st : State) (u : User) :
  is_Some (users st !! e) -> first_user_by_email st e = Some u ->
  check_password_hash (password u) p = false ->
  @login HS (Some (mkLoginData e p)) st
    = (Redirect "login" (Some "The password is incorrect, Please try again"), st).
Proof. intros [v Hv] Hu Hchk. unfold login. cbn. rewrite Hv, Hu, Hchk. reflexivity. Qed.

(** Registering an e-mail in neither the [users] dict nor the table appends
    exactly one user, with an id larger than every existing one and the
    salted hash (not the plaintext) as password, and logs that user in; the
    [users] dict is left as it was. *)
Theorem register_creates_user (salt e p n : string) (st : State) :
  users st !! e = None -> email_taken st e = false ->
  let st' := snd (@register HS salt (Some (mkRegisterData e p n)) st) in
  exists u, users_tbl st' = users_tbl st ++ [u] /\
    email u = e /\ name u = n /\ password u = generate_password_hash salt p /\
    Forall (fun v => user_id v < user_id u) (users_tbl st) /\
    session st' = Some (user_id u) /\ users st' = users st /\
    posts_tbl st' = posts_tbl st /\ comments_tbl st' = comments_tbl st.
Proof.
  intros Hc Ht. cbv zeta. rewrite (register_fresh salt e p n st Hc Ht). cbn.
  eexists. repeat split.
  pose proof (next_id_gt (map user_id (users_tbl st))) as Hg.
  apply List.Forall_map in Hg. exact Hg.
Qed.

End Handlers.

(** The administrator creating a post with a title no post carries gets a
    redirect to the index, and exactly one post is appended: it has the
    next id, the administrator as author, [today] as date and the form's
    fields, and looking up its id finds it. *)
Theorem add_new_post_appends (today : string) (f : PostData) (st : State) (u : User) :
  current_user st = Some u -> user_id u = 1 ->
  existsb (fun q => bool_decide (title q = form_title f)) (posts_tbl st) = false ->
  let st' := snd (add_new_post today (Some f) st) in
  add_new_post today (Some f) st
    = (Redirect "get_all_posts" None, set_posts_tbl st (posts_tbl st ++ [created_post st today f 1])) /\
  get_post st' (post_id (created_post st today f 1)) = Some (created_post st today f 1).
Proof.
  intros Hu Hid Ht. cbv zeta.
  assert (Heq : add_new_post today (Some f) st
    = (Redirect "get_all_posts" None, set_posts_tbl st (posts_tbl st ++ [created_post st today f 1]))).
  { unfold add_new_post. rewrite (admin_only_admin _ st u Hu Hid).
    unfold add_new_post_body. rewrite Ht, Hu, <- Hid. reflexivity. }
  split; [exact Heq|]. rewrite Heq. unfold get_post.
  exact (find_post_fresh_id (posts_tbl st) (created_post st today f 1) eq_refl).
Qed.

(** Creating a post whose title another post already has fails at the
    commit (UNIQUE on [title]) with an unhandled error, and nothing
    changes. *)
Theorem add_new_post_duplicate_title (today : string) (f : PostData) (st : State) (u : User) :
  current_user st = Some u -> user_id u = 1 ->
  existsb (fun q => bool_decide (title q = form_title f)) (posts_tbl st) = true ->
  add_new_post today (Some f) st = (Crash "IntegrityError", st).
Proof.
  intros Hu Hid Ht. unfold add_new_post. rewrite (admin_only_admin _ st u Hu Hid).
  unfold add_new_post_body. rewrite Ht. reflexivity.
Qed.

(** ** Runs of the application properties on concrete inputs *)

Definition admin_user : User := mkUser 1 "admin@x.com" "pw0$s0" "Admin".
Definition bob_user : User := mkUser 2 "bob@x.com" "pw2$s2" "Bob".

Lemma login_refused_unless_known_at_startup_witness :
  existsb (fun u => bool_decide (email u = "a@x.com")) [] = false /\
  (let st := serve [ReqRegister "s1" (Some (mkRegisterData "a@x.com" "pw1" "A"))]
                   (startup [] [] []) in
   login (Some (mkLoginData "a@x.com" "pw1")) st
   = (Redirect "login" (Some "The username/email does not exist!"), st)).
Proof.
  split; [reflexivity|].
  apply (login_refused_unless_known_at_startup
           [ReqRegister "s1" (Some (mkRegisterData "a@x.com" "pw1" "A"))] [] [] [] "a@x.com" "pw1").
  reflexivity.
Defined.

Lemma keys_stay_unique_witness :
  wf_keys st_blog /\
  wf_keys (serve [ReqNewPost "June 03, 2026" (Some (mkPostData "V" "S3" "B3" "I3"));
                  ReqShowPost 1 POST (Some "again"); ReqDeletePost 2] st_blog).
Proof.
  assert (H : wf_keys st_blog).
  { unfold wf_keys. cbn.
    repeat split; repeat (apply List.NoDup_cons; [cbn; intuition discriminate|]); apply List.NoDup_nil. }
  split; [exact H|]. apply keys_stay_unique. exact H.
Defined.

Lemma user_references_stay_valid_witness :
  refs_ok st_blog /\
  refs_ok (serve [ReqShowPost 2 POST (Some "hello"); ReqDeletePost 1] st_blog).
Proof.
  assert (H : refs_ok st_blog).
  { unfold refs_ok. cbn. split.
    - constructor; [exists admin_user; split; [left; reflexivity|reflexivity]|].
      constructor; [exists admin_user; split; [left; reflexivity|reflexivity]|].
      constructor.
    - constructor; [exists bob_user; split; [right; left; reflexivity|reflexivity]|].
      constructor. }
  split; [exact H|]. apply user_references_stay_valid. exact H.
Defined.

Lemma login_succeeds_witness :
  is_Some (users st_anon !! "admin@x.com") /\
  first_user_by_email st_anon "admin@x.com" = Some admin_user /\
  check_password_hash (password admin_user) "pw0" = true /\
  List.NoDup (map user_id (users_tbl st_anon)) /\
  (login (Some (mkLoginData "admin@x.com" "pw0")) st_anon
     = (Redirect "get_all_posts" None, set_session st_anon (Some (user_id admin_user))) /\
   current_user (set_session st_anon (Some (user_id admin_user))) = Some admin_user).
Proof.
  assert (H1 : is_Some (users st_anon !! "admin@x.com")) by (exists "Secret"; reflexivity).
  assert (H4 : List.NoDup (map user_id (users_tbl st_anon))).
  { cbn. repeat (apply List.NoDup_cons; [cbn; intuition discriminate|]); apply List.NoDup_nil. }
  split; [exact H1|split; [reflexivity|split; [reflexivity|split; [exact H4|]]]].
  apply (login_succeeds "admin@x.com" "pw0" st_anon admin_user H1); [reflexivity|reflexivity|exact H4].
Defined.

Lemma login_wrong_password_witness :
  is_Some (users st_anon !! "bob@x.com") /\
  first_user_by_email st_anon "bob@x.com" = Some bob_user /\
  check_password_hash (password bob_user) "bad" = false /\
  login (Some (mkLoginData "bob@x.com" "bad")) st_anon
    = (Redirect "login" (Some "The password is incorrect, Please try again"), st_anon).
Proof.
  assert (H1 : is_Some (users st_anon !! "bob@x.com")) by (exists "Secret"; reflexivity).
  split; [exact H1|split; [reflexivity|split; [reflexivity|]]].
  apply (login_wrong_password "bob@x.com" "bad" st_anon bob_user H1); reflexivity.
Defined.

Lemma register_creates_user_witness :
  users st_empty !! "a@x.com" = None /\ email_taken st_empty "a@x.com" = false /\
  (let st' := snd (register "s1" (Some (mkRegisterData "a@x.com" "pw1" "A")) st_empty) in
   exists u, users_tbl st' = users_tbl st_empty ++ [u] /\
     email u = "a@x.com" /\ name u = "A" /\ password u = generate_password_hash "s1" "pw1" /\
     Forall (fun v => user_id v < user_id u) (users_tbl st_empty) /\
     session st' = Some (user_id u) /\ users st' = users st_empty /\
     posts_tbl st' = posts_tbl st_empty /\ comments_tbl st' = comments_tbl st_empty).
Proof.
  split; [reflexivity|split; [reflexivity|]].
  apply (register_creates_user "s1" "a@x.com" "pw1" "A" st_empty); reflexivity.
Defined.

Lemma register_cached_email_witness :
  is_Some (users st_anon !! reg_email (mkRegisterData "bob@x.com" "pw5" "Bobby")) /\
  register "s5" (Some (mkRegisterData "bob@x.com" "pw5" "Bobby")) st_anon =
  (Redirect "login" (Some "You've already signed up with that email, log in instead!"), st_anon).
Proof.
  assert (H : is_Some (users st_anon !! reg_email (mkRegisterData "bob@x.com" "pw5" "Bobby")))
    by (exists "Secret"; reflexivity).
  split; [exact H|]. apply (register_cached_email "s5" _ st_anon H).
Defined.

Lemma add_new_post_appends_witness :
  current_user st_blog = Some admin_user /\ user_id admin_user = 1 /\
  existsb (fun q => bool_decide (title q = form_title (mkPostData "V" "S3" "B3" "I3"))) (posts_tbl st_blog) = false /\
  (let st' := snd (add_new_post "June 03, 2026" (Some (mkPostData "V" "S3" "B3" "I3")) st_blog) in
   add_new_post "June 03, 2026" (Some (mkPostData "V" "S3" "B3" "I3")) st_blog
     = (Redirect "get_all_posts" None,
        set_posts_tbl st_blog (posts_tbl st_blog ++
          [created_post st_blog "June 03, 2026" (mkPostData "V" "S3" "B3" "I3") 1])) /\
   get_post st' (post_id (created_post st_blog "June 03, 2026" (mkPostData "V" "S3" "B3" "I3") 1))
     = Some (created_post st_blog "June 03, 2026" (mkPostData "V" "S3" "B3" "I3") 1)).
Proof.
  split; [reflexivity|split; [reflexivity|split; [reflexivity|]]].
  apply (add_new_post_appends "June 03, 2026" (mkPostData "V" "S3" "B3" "I3") st_blog admin_user);
    reflexivity.
Defined.

Lemma add_new_post_duplicate_title_witness :
  current_user st_blog = Some admin_user /\ user_id admin_user = 1 /\
  existsb (fun q => bool_decide (title q = form_title (mkPostData "T" "S3" "B3" "I3"))) (posts_tbl st_blog) = true /\
  add_new_post "June 03, 2026" (Some (mkPostData "T" "S3" "B3" "I3")) st_blog = (Crash "IntegrityError", st_blog).
Proof.
  split; [reflexivity|split; [reflexivity|split; [reflexivity|]]].
  apply (add_new_post_duplicate_title "June 03, 2026" (mkPostData "T" "S3" "B3" "I3") st_blog admin_user);
    reflexivity.
Defined.
